(** * plot_gitdata.py: load a CSV of elevations, build a surface figure, submit it

    The script [output/plot_gitdata.py] is a straight line of library calls:

      tls.set_credentials_file(username=..., api_key=...)
      z_data = pd.read_csv(URL)
      data   = [go.Surface(z=z_data.as_matrix())]
      layout = go.Layout(title=..., autosize=False, width=500, height=500,
                         margin=dict(l=65, r=50, b=65, t=90))
      fig    = go.Figure(data=data, layout=layout)
      py.iplot(fig, filename='elevations-3d-surface')

    The embedding below keeps that shape.  Library calls are effects in a
    small reader/state/exception monad: the environment holds what lies
    outside the process (the remote CSV resources and the hosted plotting
    service), the state holds what the process can change (local files, the
    array objects it allocated) together with a chronological log of the
    effects performed.  An uncaught Python exception ends the run: the
    monad's bind stops at the first [Raise].

    The calls into pandas are modelled with the defaults the script leaves
    in place ([sep=','], [header='infer'], [skip_blank_lines=True],
    [index_col=None], [float_precision=None]) on a fragment of CSV texts;
    outside that fragment the model answers [Unmodelled] and no statement is
    made.  Numbers are binary64 values, written as the rationals they are. *)

From Stdlib Require Import Ascii String QArith Qabs Lqa.
From stdpp Require Import gmap strings list fin_maps.

Local Open Scope Z_scope.
Local Open Scope string_scope.
Local Open Scope list_scope.

(** ** Characters and text *)

Module Text.

Definition code (c : ascii) : N := N_of_ascii c.

Definition is_digit (c : ascii) : bool :=
  ((48 <=? code c) && (code c <=? 57))%N.

Definition is_upper (c : ascii) : bool :=
  ((65 <=? code c) && (code c <=? 90))%N.

Definition is_lower (c : ascii) : bool :=
  ((97 <=? code c) && (code c <=? 122))%N.

Definition is_letter (c : ascii) : bool := is_upper c || is_lower c.

Definition to_lower (c : ascii) : ascii :=
  if is_upper c then ascii_of_N (code c + 32) else c.

Fixpoint all_chars (p : ascii -> bool) (s : string) : bool :=
  match s with
  | EmptyString => true
  | String c s' => p c && all_chars p s'
  end.

Fixpoint lowercase (s : string) : string :=
  match s with
  | EmptyString => EmptyString
  | String c s' => String (to_lower c) (lowercase s')
  end.

Definition is_empty (s : string) : bool :=
  match s with EmptyString => true | _ => false end.

(** [split_on sep s] is Python's [s.split(sep)] for a one-character
    separator: the pieces between the separators, empty pieces kept, so the
    result has one more piece than [s] has separators. *)
Fixpoint split_on (sep : ascii) (s : string) : list string :=
  match s with
  | EmptyString => [EmptyString]
  | String c s' =>
      if Ascii.eqb c sep then EmptyString :: split_on sep s'
      else match split_on sep s' with
           | [] => [String c EmptyString]
           | w :: ws => String c w :: ws
           end
  end.

(** Value of a run of decimal digits, most significant first. *)
Fixpoint digits_value (acc : Z) (s : string) : Z :=
  match s with
  | EmptyString => acc
  | String c s' => digits_value (10 * acc + Z.of_N (code c - 48)) s'
  end.

Definition is_digits (s : string) : bool :=
  negb (is_empty s) && all_chars is_digit s.

End Text.

(** ** binary64 arithmetic, as far as the number converter needs it *)

Module Float64.

Local Open Scope Z_scope.

(** The integer nearest to [num / den], ties to even ([den] positive). *)
Definition round_half_even (num den : Z) : Z :=
  let q := num / den in
  let r := num mod den in
  if 2 * r <? den then q
  else if den <? 2 * r then q + 1
  else if Z.even q then q else q + 1.

(** The binary64 number nearest to a rational [y >= 0]: [y] is scaled by
    a power of two [s] to a 53-bit significand, which is rounded.  [guard]
    is the number of binary places kept to find the exponent; rationals
    below [2^(52 - guard)] (none arises here) are returned as they are, and
    so is 0.  Overflow does not arise either. *)
Definition nearest_with (guard : Z) (y : Q) : Q :=
  let n := Qnum y in
  let d := Zpos (Qden y) in
  let l := Z.log2 (n * 2 ^ guard / d) in
  if l <? 52 then y
  else let s := 2 ^ (l - 52) in
       Qred (round_half_even (n * 2 ^ guard) (d * s) * s
             # Z.to_pos (2 ^ guard)).

Definition nearest (y : Q) : Q := nearest_with 1100 y.

(** The division of two doubles, the divisor being an integer. *)
Definition fdiv (x : Q) (p : Z) : Q := nearest (x / inject_Z p).

(** The scaling loop of the converter, for a negative decimal exponent
    [-n]:

      p10 = 10.;
      while (n) { if (n & 1) number /= p10;  n >>= 1;  p10 *= p10; }

    [p10] runs through 10, 100, 10^4, 10^8, 10^16, which are doubles. *)
Fixpoint scale_down (n : positive) (p10 : Z) (number : Q) : Q :=
  match n with
  | xH => fdiv number p10
  | xO n' => scale_down n' (p10 * p10) number
  | xI n' => scale_down n' (p10 * p10) (fdiv number p10)
  end.

(** Half a unit in the last place, relative to the number: [2^-53]. *)
Definition ulp_half : Q := 1 # 9007199254740992.

End Float64.

(** ** pandas: the values of a frame and the reading of a CSV text *)

Module Pandas.

Import Text Float64.

(** What a cell of the frame holds.  A number is the binary64 (or int64)
    value the cell was converted to, written as the rational it is, in
    lowest terms.  The int64 and float64 dtypes are not told apart: they
    agree on the integers covered here, which have at most 15 digits. *)
Inductive value : Type :=
  | VNum (q : Q)
  | VNaN
  | VStr (s : string).

(** The Python exceptions the script can die of. *)
Inductive exn : Type :=
  | URLError          (* urllib: the resource could not be fetched *)
  | EmptyDataError    (* pandas: no columns to parse from file *)
  | ParserError       (* pandas: error tokenizing data, too many fields *)
  | PlotlyError.      (* plotly: the hosted service refused the request *)

(** Outcome of a library call.  [Unmodelled] marks inputs outside the
    fragment this development covers. *)
Inductive result (A : Type) : Type :=
  | Ok (a : A)
  | Raise (e : exn)
  | Unmodelled.
Arguments Ok {A} a.
Arguments Raise {A} e.
Arguments Unmodelled {A}.

Record DataFrame : Type := {
  columns : list string;        (* the cells of the header line *)
  values : list (list value)    (* the data rows, after type inference *)
}.

(** *** Literals *)

(** The two runs of digits of a literal [digits] or [digits.digits], of
    at most 15 digits in all, so that the digits taken as one integer are
    exact in int64 and in float64 alike. *)
Definition literal_parts (s : string) : option (string * string) :=
  match split_on "." s with
  | [ip] =>
      if is_digits ip && (String.length ip <=? 15)%nat
      then Some (ip, EmptyString)
      else None
  | [ip; fp] =>
      if is_digits ip && is_digits fp
         && (String.length ip + String.length fp <=? 15)%nat
      then Some (ip, fp)
      else None
  | _ => None
  end.

(** pandas' default converter of a literal to a double ([xstrtod]): the
    digits are accumulated into one number, which is then scaled down by
    the power of ten the fractional digits call for.  Without fractional
    digits this is the integer itself. *)
Definition xstrtod (ip fp : string) : Q :=
  let number := inject_Z (digits_value 0 (ip +:+ fp)) in
  Qred match N.of_nat (String.length fp) with
       | N0 => number
       | Npos n => scale_down n 10 number
       end.

(** The rational the literal denotes, for comparison. *)
Definition exact_value (ip fp : string) : Q :=
  digits_value 0 (ip +:+ fp) # Z.to_pos (10 ^ Z.of_nat (String.length fp)).

Definition unsigned_number (s : string) : option Q :=
  (fun parts => xstrtod (fst parts) (snd parts)) <$> literal_parts s.

Definition unsigned_exact (s : string) : option Q :=
  (fun parts => exact_value (fst parts) (snd parts)) <$> literal_parts s.

(** An optional minus sign in front of an unsigned literal. *)
Definition signed (f : string -> option Q) (s : string) : option Q :=
  match s with
  | String c s' => if Ascii.eqb c "-" then Qopp <$> f s' else f s
  | EmptyString => f s
  end.

(** The number a cell is converted to, and the number it denotes. *)
Definition cell_number (s : string) : option Q := signed unsigned_number s.

Definition cell_exact (s : string) : option Q := signed unsigned_exact s.

(** Floating-point tolerance: a relative error of at most [2^-50]. *)
Definition tolerance : Q := 1 # 1125899906842624.

Definition close (x q : Q) : Prop :=
  (Qabs (x - q) <= Qabs q * tolerance)%Q.

(** A cell that holds a numeric literal. *)
Definition numeric_literal (s : string) : Prop := is_Some (cell_number s).

(** Words that pandas reads as something other than plain text: the
    missing-value markers, the infinities and the booleans.  They are
    compared without regard to case, which covers more than pandas treats
    specially; cells spelled like that are left out of the model. *)
Definition reserved_words : list string :=
  ["na"; "nan"; "null"; "none"; "inf"; "infinity"; "true"; "false"].

Definition is_word (s : string) : bool :=
  negb (is_empty s) && all_chars is_letter s
  && negb (bool_decide (lowercase s ∈ reserved_words)).

Inductive cell_class : Type :=
  | CEmpty                (* the empty cell, a missing value *)
  | CNumber (q : Q)       (* a numeric literal *)
  | CWord                 (* plain text *)
  | CUnmodelled.

Definition classify (s : string) : cell_class :=
  if is_empty s then CEmpty
  else match cell_number s with
       | Some q => CNumber q
       | None => if is_word s then CWord else CUnmodelled
       end.

Definition cell_ok (s : string) : bool :=
  match classify s with CUnmodelled => false | _ => true end.

(** Header cells only name the columns; any text over letters, digits,
    [.], [-] and [_] is covered, the empty name included. *)
Definition label_char (c : ascii) : bool :=
  is_letter c || is_digit c || Ascii.eqb c "." || Ascii.eqb c "-"
  || Ascii.eqb c "_".

Definition label_ok (s : string) : bool := all_chars label_char s.

(** *** Tokenizing *)

Definition newline : ascii := "010".

(** Lines are split at line feeds, blank lines are skipped, and each
    remaining line is split at commas.  (Quoting and carriage returns lie
    outside the fragment: a cell holding such a character is not [cell_ok].) *)
Definition tokenize (text : string) : list (list string) :=
  split_on "," <$> filter (fun line => is_empty line = false)
                          (split_on newline text).

(** *** Type inference, column by column *)

Definition column (j : nat) (rows : list (list string)) : list string :=
  (fun r => nth j r "") <$> rows.

(** A column is numeric when each of its cells is a number or missing. *)
Definition numeric_cell (s : string) : bool :=
  match classify s with CEmpty | CNumber _ => true | _ => false end.

Definition numeric_column (cells : list string) : bool :=
  forallb numeric_cell cells.

(** In a numeric column a literal becomes its number; in any other column
    (dtype [object]) every cell stays the string it was.  A missing cell is
    NaN in both. *)
Definition convert_cell (numeric : bool) (s : string) : value :=
  match classify s with
  | CEmpty => VNaN
  | CNumber q => if numeric then VNum q else VStr s
  | _ => VStr s
  end.

Definition column_kinds (n : nat) (rows : list (list string)) : list bool :=
  (fun j => numeric_column (column j rows)) <$> seq 0 n.

Definition convert_row (kinds : list bool) (r : list string) : list value :=
  zip_with convert_cell kinds r.

(** A data line with fewer fields than the header is completed with empty
    fields on the right. *)
Definition pad (n : nat) (r : list string) : list string :=
  r ++ replicate (n - length r) "".

Definition convert (header : list string) (rows : list (list string))
  : DataFrame :=
  let padded := pad (length header) <$> rows in
  let kinds := column_kinds (length header) padded in
  {| columns := header; values := convert_row kinds <$> padded |}.

Definition too_long (n : nat) (r : list string) : bool :=
  (n <? length r)%nat.

(** [pd.read_csv] on the text of the resource.  The first non-blank line is
    the header.  A later line with more fields than expected is a
    [ParserError]; when it is the first data line pandas instead takes the
    surplus leading fields as row labels, a case left out here. *)
Definition read_table (text : string) : result DataFrame :=
  match tokenize text with
  | [] => Raise EmptyDataError
  | header :: rows =>
      if negb (forallb label_ok header && forallb (forallb cell_ok) rows)
      then Unmodelled
      else match rows with
           | [] => Ok (convert header [])
           | r1 :: rest =>
               if too_long (length header) r1 then Unmodelled
               else if existsb (too_long (length header)) rest
                    then Raise ParserError
                    else Ok (convert header rows)
           end
  end.

End Pandas.

(** ** The process, its surroundings and its effects *)

Module Run.

Import Text Pandas.

(** An array object is named by its position in the heap. *)
Abbreviation loc := nat (only parsing).

(** The Grid: the 2-D array [DataFrame.as_matrix()] hands out, row-major. *)
Abbreviation Grid := (list (list value)) (only parsing).

Record credentials : Type := {
  username : string;
  api_key : string
}.

(** [go.Surface(z=...)]: the trace keeps the array it was given, by
    reference. *)
Record Surface : Type := { z : loc }.

(** [go.Layout(...)]; [margin] is the Python dict passed for it. *)
Record Layout : Type := {
  title : string;
  autosize : bool;
  width : Z;
  height : Z;
  margin : gmap string Z
}.

Record Figure : Type := {
  data : list Surface;
  layout : Layout
}.

(** What is sent to the hosted service: the figure with every trace's array
    read out of the heap. *)
Record Payload : Type := {
  traces : list Grid;
  display : Layout
}.

Inductive event : Type :=
  | EFileWrite (path : string) (c : credentials)   (* write to local storage *)
  | EHttpGet (url : string)                        (* fetch of a resource *)
  | EPlotPost (fig : Figure) (filename : string).  (* render submission *)

(** Outside the process: which resources can be fetched (with their text),
    and which submissions the hosted service accepts. *)
Record env : Type := {
  net : string -> option string;
  service : credentials -> Payload -> string -> bool
}.

(** Inside the process: local files, allocated arrays, and the effects so
    far, oldest first. *)
Record state : Type := {
  disk : gmap string credentials;
  heap : list Grid;
  log : list event
}.

Definition M (A : Type) : Type := env -> state -> result A * state.

Definition ret {A} (a : A) : M A := fun _ s => (Ok a, s).

Definition bind {A B} (m : M A) (k : A -> M B) : M B :=
  fun e s =>
    match m e s with
    | (Ok a, s') => k a e s'
    | (Raise x, s') => (Raise x, s')
    | (Unmodelled, s') => (Unmodelled, s')
    end.

Notation "x <- m ;; k" := (bind m (fun x => k))
  (at level 100, m at next level, right associativity).
Notation "m ;;; k" := (bind m (fun _ => k))
  (at level 100, right associativity).

Definition record (ev : event) (s : state) : state :=
  {| disk := disk s; heap := heap s; log := log s ++ [ev] |}.

(** *** plotly.tools *)

Definition CREDENTIALS_FILE : string := "~/.plotly/.credentials".

(** [tls.set_credentials_file(username=u, api_key=k)], recorded as one
    write of the pair to the credentials file.  Local storage is assumed
    writable; the other files plotly keeps beside the credentials (its
    configuration file, its permission test) are not part of the state. *)
Definition set_credentials_file (u k : string) : M unit :=
  fun _ s =>
    let c := {| username := u; api_key := k |} in
    (Ok tt,
     record (EFileWrite CREDENTIALS_FILE c)
       {| disk := <[CREDENTIALS_FILE := c]> (disk s);
          heap := heap s; log := log s |}).

(** *** pandas *)

(** [pd.read_csv(url)]: one request; an unreachable resource raises, a
    fetched one is parsed. *)
Definition read_csv (url : string) : M DataFrame :=
  fun e s =>
    let s' := record (EHttpGet url) s in
    match net e url with
    | None => (Raise URLError, s')
    | Some text => (read_table text, s')
    end.

(** [df.as_matrix()]: a new array holding the frame's values. *)
Definition as_matrix (df : DataFrame) : M loc :=
  fun _ s =>
    (Ok (length (heap s)),
     {| disk := disk s; heap := heap s ++ [values df]; log := log s |}).

(** *** plotly.graph_objs *)

Definition go_Surface (z : loc) : M Surface := ret {| z := z |}.

Definition go_Layout (title : string) (autosize : bool) (width height : Z)
    (margin : gmap string Z) : M Layout :=
  ret {| title := title; autosize := autosize; width := width;
         height := height; margin := margin |}.

Definition go_Figure (data : list Surface) (layout : Layout) : M Figure :=
  ret {| data := data; layout := layout |}.

(** *** plotly.plotly *)

Definition resolve (h : list Grid) (fig : Figure) : option Payload :=
  grids ← mapM (fun t => h !! z t) (data fig);
  Some {| traces := grids; display := layout fig |}.

(** [py.iplot(fig, filename=name)]: one submission, signed with the stored
    credentials; the service accepts it or the call raises.  One event
    stands for the call, whatever requests plotly sends to get the
    service's verdict, and the display of the result after an accepted
    submission is not modelled.  (Calls made without stored credentials, or
    with a trace whose array is gone, do not arise in the script and are
    left out.) *)
Definition iplot (fig : Figure) (name : string) : M unit :=
  fun e s =>
    match disk s !! CREDENTIALS_FILE, resolve (heap s) fig with
    | Some c, Some p =>
        let s' := record (EPlotPost fig name) s in
        if service e c p name then (Ok tt, s') else (Raise PlotlyError, s')
    | _, _ => (Unmodelled, s)
    end.

(** ** The script *)

Definition URL : string :=
  "https://raw.githubusercontent.com/plotly/datasets/master/api_docs/mt_bruno_elevation.csv".

Definition the_credentials : credentials :=
  {| username := "annevanrossum"; api_key := "2z29vr6xo7" |}.

(** Lines 4-5. *)
Definition configure : M unit :=
  set_credentials_file "annevanrossum" "2z29vr6xo7".

(** Data Loader: line 12 and the [as_matrix()] of line 16. *)
Definition data_loader : M loc :=
  z_data <- read_csv URL ;;
  as_matrix z_data.

(** Figure Builder: lines 14-31, given the array. *)
Definition figure_builder (grid : loc) : M Figure :=
  trace <- go_Surface grid ;;
  let data := [trace] in
  layout <- go_Layout "Mt Bruno Elevation" false 500 500
              (<["l" := 65]> (<["r" := 50]> (<["b" := 65]> (<["t" := 90]> ∅)))) ;;
  go_Figure data layout.

(** Renderer Client: line 32. *)
Definition renderer_client (fig : Figure) : M unit :=
  iplot fig "elevations-3d-surface".

(** Everything up to and including line 31. *)
Definition load_and_build : M Figure :=
  configure ;;;
  grid <- data_loader ;;
  figure_builder grid.

Definition main : M unit :=
  fig <- load_and_build ;;
  renderer_client fig.

(** The taxonomy of the specification: a LoadError is any exception raised
    while fetching or parsing. *)
Definition is_load_error (x : exn) : bool :=
  match x with
  | URLError | EmptyDataError | ParserError => true
  | PlotlyError => false
  end.

Definition is_plot_post (ev : event) : bool :=
  match ev with EPlotPost _ _ => true | _ => false end.

Definition initial : state := {| disk := ∅; heap := []; log := [] |}.

(** The Figure of a run as a value: the outcome of the stages before the
    submission, with the trace's array read out of the heap. *)
Definition figure_value (out : result Figure * state) : result Payload :=
  match out with
  | (Ok fig, s) =>
      match resolve (heap s) fig with
      | Some p => Ok p
      | None => Unmodelled
      end
  | (Raise x, _) => Raise x
  | (Unmodelled, _) => Unmodelled
  end.

(** The states a run started in [s] passes through: after lines 4-5, after
    the request of line 12, and after the array of line 16 is allocated. *)
Definition configured (s : state) : state :=
  {| disk := <[CREDENTIALS_FILE := the_credentials]> (disk s);
     heap := heap s;
     log := log s ++ [EFileWrite CREDENTIALS_FILE the_credentials] |}.

Definition requested (s : state) : state :=
  record (EHttpGet URL) (configured s).

Definition loaded (s : state) (g : Grid) : state :=
  {| disk := disk (requested s); heap := heap s ++ [g];
     log := log (requested s) |}.

(** Cell [(i, j)] of a grid. *)
Definition cell (g : Grid) (i j : nat) : option value :=
  row ← g !! i; row !! j.

End Run.

Import Text Float64 Pandas Run.

(** ** Sample inputs *)

Definition nl : string := String newline EmptyString.

Definition csv_3x3 : string := "1,2,3" +:+ nl +:+ "4,5,6" +:+ nl +:+ "7,8,9".
Definition csv_2x2 : string := "10,20" +:+ nl +:+ "30,40".
Definition csv_text_cell : string :=
  "x,y" +:+ nl +:+ "1,2.5" +:+ nl +:+ "3,peak" +:+ nl.
Definition csv_with_header : string :=
  "x,y" +:+ nl +:+ "0.1,-2" +:+ nl +:+ "3,4.5" +:+ nl.
Definition csv_ragged : string :=
  "a,b,c" +:+ nl +:+ "1,2" +:+ nl +:+ "3,4,5" +:+ nl.

Definition serving (text : string) (accept : bool) : env :=
  {| net := fun _ => Some text; service := fun _ _ _ => accept |}.

Definition offline : env :=
  {| net := fun _ => None; service := fun _ _ _ => true |}.

Definition int (n : Z) : value := VNum (n # 1).

Definition csv_long_line : string :=
  "a,b" +:+ nl +:+ "1,2" +:+ nl +:+ "3,4,5" +:+ nl.

(** The layout of lines 19-30 and the figure of line 31 over an array. *)
Definition mt_bruno_layout : Layout :=
  {| title := "Mt Bruno Elevation"; autosize := false;
     width := 500; height := 500;
     margin := <["l" := 65]> (<["r" := 50]> (<["b" := 65]> (<["t" := 90]> ∅))) |}.

Definition surface_figure (grid : loc) : Figure :=
  {| data := [{| z := grid |}]; layout := mt_bruno_layout |}.

(** What line 32 sends for a frame. *)
Definition submitted (df : DataFrame) : Payload :=
  {| traces := [values df]; display := mt_bruno_layout |}.

(** The effects a run added to the log. *)
Definition new_events (before after : state) : list event :=
  drop (length (log before)) (log after).

(** An environment given by its two parts. *)
Definition world (text : option string)
    (accept : credentials -> Payload -> string -> bool) : env :=
  {| net := fun _ => text; service := accept |}.

(** ** The stages, step by step *)

Ltac step_builder :=
  unfold figure_builder, bind, go_Surface, go_Layout, go_Figure, ret; cbv beta iota zeta.

Section Stages.

Variable e : env.
Variable s : state.

Lemma configure_run : configure e s = (Ok tt, configured s).
Proof. reflexivity. Qed.

Lemma resolve_fresh (h : list Grid) (g : Grid) (lay : Layout) :
  resolve (h ++ [g]) {| data := [{| z := length h |}]; layout := lay |}
  = Some {| traces := [g]; display := lay |}.
Proof.
  unfold resolve. cbn.
  rewrite lookup_app_r by lia. rewrite Nat.sub_diag. reflexivity.
Qed.

Lemma load_and_build_run :
  exists fig,
    fst (figure_builder (length (heap s)) e s) = Ok fig /\
    load_and_build e s =
      (match net e URL return result Figure * state with
      | None => (Raise URLError, requested s)
      | Some text =>
          match read_table text with
          | Ok df => (Ok fig, loaded s (values df))
          | Raise x => (Raise x, requested s)
          | Unmodelled => (Unmodelled, requested s)
          end
      end).
Proof.
  eexists. step_builder. split; [reflexivity|].
  unfold load_and_build, data_loader, bind, read_csv, as_matrix.
  rewrite configure_run. cbv beta iota zeta.
  destruct (net e URL) as [text|]; [|reflexivity].
  destruct (read_table text); reflexivity.
Qed.

Lemma main_run :
  exists fig,
    fst (figure_builder (length (heap s)) e s) = Ok fig /\
    main e s =
      (match net e URL return result unit * state with
      | None => (Raise URLError, requested s)
      | Some text =>
          match read_table text with
          | Ok df =>
              (if service e the_credentials
                    {| traces := [values df]; display := layout fig |}
                    "elevations-3d-surface"
               then Ok tt else Raise PlotlyError,
               record (EPlotPost fig "elevations-3d-surface")
                      (loaded s (values df)))
          | Raise x => (Raise x, requested s)
          | Unmodelled => (Unmodelled, requested s)
          end
      end).
Proof.
  destruct load_and_build_run as (fig & Hfig & Hrun).
  exists fig. split; [exact Hfig|].
  unfold main, bind. rewrite Hrun.
  destruct (net e URL) as [text|]; [|reflexivity].
  destruct (read_table text) as [df| |]; try reflexivity.
  revert Hfig. step_builder. cbn [fst]. intros [= <-].
  unfold renderer_client, iplot.
  cbn [disk loaded requested record configured heap].
  rewrite lookup_insert_eq, resolve_fresh.
  destruct (service _ _ _ _); reflexivity.
Qed.

End Stages.

(** ** Reading a table *)

Section Reading.

Implicit Types (r : list string) (rows : list (list string)) (c : string).

Lemma classify_number c q : cell_number c = Some q -> classify c = CNumber q.
Proof.
  intros H. destruct c as [|a c].
  - vm_compute in H. discriminate.
  - unfold classify. cbn [is_empty]. rewrite H. reflexivity.
Qed.

Lemma numeric_literal_ok c : numeric_literal c -> cell_ok c = true.
Proof.
  intros [q Hq]. unfold cell_ok. rewrite (classify_number _ _ Hq). reflexivity.
Qed.

Lemma numeric_literal_cell c : numeric_literal c -> numeric_cell c = true.
Proof.
  intros [q Hq]. unfold numeric_cell.
  rewrite (classify_number _ _ Hq). reflexivity.
Qed.

Lemma numeric_cell_nth r j :
  Forall numeric_literal r -> numeric_cell (nth j r "") = true.
Proof.
  intros Hr. rewrite nth_lookup.
  destruct (r !! j) as [c|] eqn:Hj; cbn; [|reflexivity].
  apply numeric_literal_cell. eapply Forall_lookup_1; eassumption.
Qed.

Lemma numeric_column_all rows j :
  Forall (Forall numeric_literal) rows ->
  numeric_column (column j rows) = true.
Proof.
  intros Hrows. unfold numeric_column, column.
  apply forallb_forall. intros c Hc.
  apply in_map_iff in Hc as (r & <- & Hr).
  apply numeric_cell_nth.
  rewrite Forall_forall in Hrows. apply Hrows.
  apply list_elem_of_In. exact Hr.
Qed.

Lemma fmap_const_seq {A} (x : A) (f : nat -> A) n a :
  (forall j, f j = x) -> f <$> seq a n = replicate n x.
Proof.
  intros Hf. revert a. induction n as [|n IH]; intros a; cbn; [reflexivity|].
  rewrite Hf. f_equal. apply IH.
Qed.

Lemma zip_with_replicate_l {A B C} (f : A -> B -> C) x (l : list B) :
  zip_with f (replicate (length l) x) l = f x <$> l.
Proof. induction l as [|b l IH]; cbn; [reflexivity|]. f_equal. exact IH. Qed.

Lemma pad_exact n r : length r = n -> pad n r = r.
Proof.
  intros <-. unfold pad. rewrite Nat.sub_diag. cbn. apply app_nil_r.
Qed.

Lemma pad_length n r : (length r <= n)%nat -> length (pad n r) = n.
Proof.
  intros H. unfold pad. rewrite length_app, length_replicate. lia.
Qed.

Lemma column_kinds_length n rows : length (column_kinds n rows) = n.
Proof. unfold column_kinds. rewrite length_fmap. apply length_seq. Qed.

Lemma convert_row_length kinds r :
  length (convert_row kinds r) = Nat.min (length kinds) (length r).
Proof. unfold convert_row. apply length_zip_with. Qed.

(** A table whose data cells are all numeric literals, in rows as long as
    the header, is converted cell by cell. *)
Lemma convert_numeric header rows :
  Forall (fun r => length r = length header /\ Forall numeric_literal r) rows ->
  convert header rows
  = {| columns := header; values := (fun r => convert_cell true <$> r) <$> rows |}.
Proof.
  intros Hrows. unfold convert. f_equal.
  assert (Hpad : pad (length header) <$> rows = rows).
  { clear -Hrows. induction Hrows as [|r rows [Hlen _] _ IH]; cbn; [reflexivity|].
    rewrite pad_exact by exact Hlen. f_equal. exact IH. }
  rewrite Hpad.
  unfold column_kinds.
  rewrite (fmap_const_seq true).
  2:{ intros j. apply numeric_column_all.
      eapply Forall_impl; [exact Hrows|]. intros r [_ H]. exact H. }
  clear Hpad. induction Hrows as [|r rows [Hlen _] _ IH]; cbn; [reflexivity|].
  f_equal; [|exact IH].
  unfold convert_row. rewrite <- Hlen. apply zip_with_replicate_l.
Qed.

Lemma not_too_long n rows :
  Forall (fun r => (length r <= n)%nat) rows -> existsb (too_long n) rows = false.
Proof.
  induction 1 as [|r rows Hr _ IH]; cbn; [reflexivity|].
  rewrite IH, orb_false_r. unfold too_long. apply Nat.ltb_ge. exact Hr.
Qed.

Lemma forallb_cells (p : string -> bool) (P : string -> Prop) rows :
  (forall c, P c -> p c = true) ->
  Forall (Forall P) rows -> forallb (forallb p) rows = true.
Proof.
  intros Hp Hrows. apply forallb_forall. intros r Hr.
  apply forallb_forall. intros c Hc. apply Hp.
  rewrite Forall_forall in Hrows.
  specialize (Hrows r (proj2 (list_elem_of_In _ _) Hr)).
  rewrite Forall_forall in Hrows. apply Hrows. apply list_elem_of_In. exact Hc.
Qed.

(** Inside the fragment, with no line longer than the header, the table is
    read and converted. *)
Lemma read_table_ok text header rows :
  tokenize text = header :: rows ->
  forallb label_ok header = true ->
  Forall (Forall (fun c => cell_ok c = true)) rows ->
  Forall (fun r => (length r <= length header)%nat) rows ->
  read_table text = Ok (convert header rows).
Proof.
  intros Htok Hhead Hcells Hlen. unfold read_table. rewrite Htok, Hhead.
  rewrite (forallb_cells cell_ok _ rows (fun c H => H) Hcells). cbn [andb negb].
  destruct rows as [|r1 rest]; [reflexivity|].
  pose proof (not_too_long _ _ Hlen) as Hex. cbn [existsb] in Hex.
  apply orb_false_elim in Hex as [-> ->]. reflexivity.
Qed.

(** Whatever table is read has rows as long as its header. *)
Lemma read_table_rectangular text df :
  read_table text = Ok df ->
  Forall (fun row => length row = length (columns df)) (values df).
Proof.
  unfold read_table. destruct (tokenize text) as [|header rows]; [discriminate|].
  destruct (negb _); [discriminate|].
  assert (Hconv : Forall (fun r => (length r <= length header)%nat) rows ->
                  Forall (fun row => length row = length header)
                         (values (convert header rows))).
  { intros Hlen. cbn [convert values]. rewrite Forall_fmap, Forall_fmap.
    eapply Forall_impl; [exact Hlen|]. intros r Hr. cbn.
    rewrite convert_row_length, column_kinds_length, pad_length by exact Hr.
    lia. }
  destruct rows as [|r1 rest].
  - intros [= <-]. apply Hconv. constructor.
  - destruct (too_long (length header) r1) eqn:H1; [discriminate|].
    destruct (existsb _ rest) eqn:Hrest; [discriminate|].
    intros [= <-]. apply Hconv. constructor.
    + unfold too_long in H1. apply Nat.ltb_ge in H1. exact H1.
    + apply Forall_forall. intros r Hr.
      destruct (too_long (length header) r) eqn:Hl.
      * assert (existsb (too_long (length header)) rest = true) as Hc.
        { apply existsb_exists. exists r. split; [|exact Hl].
          apply list_elem_of_In. exact Hr. }
        congruence.
      * unfold too_long in Hl. apply Nat.ltb_ge in Hl. exact Hl.
Qed.

End Reading.

(** ** Numbers: how far the converted value is from the literal *)

Section Numbers.

Local Open Scope Z_scope.

Lemma round_half_even_error num den :
  0 < den ->
  - den <= 2 * (round_half_even num den * den - num) <= den.
Proof.
  intros Hden. unfold round_half_even.
  pose proof (Z.div_mod num den ltac:(lia)) as Hdm.
  pose proof (Z.mod_pos_bound num den Hden) as Hr.
  destruct (2 * (num mod den) <? den) eqn:H1.
  - apply Z.ltb_lt in H1. nia.
  - apply Z.ltb_ge in H1.
    destruct (den <? 2 * (num mod den)) eqn:H2.
    + apply Z.ltb_lt in H2. nia.
    + apply Z.ltb_ge in H2. destruct (Z.even (num / den)); nia.
Qed.

(** Rounding to the nearest double moves a number by at most half a unit
    in the last place. *)
Lemma nearest_with_bounds guard y :
  0 <= guard ->
  (0 <= y)%Q ->
  ((1 - ulp_half) * y <= nearest_with guard y
   /\ nearest_with guard y <= (1 + ulp_half) * y)%Q.
Proof.
  intros Hg Hy. unfold nearest_with.
  destruct (Z.log2 _ <? 52) eqn:Hl.
  - unfold ulp_half. split; lra.
  - apply Z.ltb_ge in Hl.
    destruct y as [n d]. cbn [Qnum Qden] in *.
    set (P := 2 ^ guard) in *.
    assert (HP : 0 < P) by (apply Z.pow_pos_nonneg; lia).
    set (l := Z.log2 (n * P / Z.pos d)) in *.
    set (s := 2 ^ (l - 52)).
    assert (Hs : 0 < s) by (apply Z.pow_pos_nonneg; lia).
    set (m := round_half_even (n * P) (Z.pos d * s)).
    pose proof (round_half_even_error (n * P) (Z.pos d * s) ltac:(lia)) as Hm.
    fold m in Hm.
    assert (Hbig : 0 < n * P / Z.pos d).
    { destruct (Z.lt_ge_cases 0 (n * P / Z.pos d)) as [H|H]; [exact H|].
      exfalso. assert (l = 0); [|lia].
      unfold l. apply Z.log2_nonpos. exact H. }
    assert (Hnorm : 2 ^ 52 * (Z.pos d * s) <= n * P).
    { pose proof (Z.log2_spec _ Hbig) as [Hlo _]. fold l in Hlo.
      pose proof (Z.mul_div_le (n * P) (Z.pos d) ltac:(lia)) as Hfl.
      assert (2 ^ l = 2 ^ 52 * s) as Hpow.
      { unfold s. rewrite <- Z.pow_add_r by lia. f_equal. lia. }
      nia. }
    rewrite Qred_correct.
    assert (Hn : 0 <= n).
    { unfold Qle in Hy. cbn in Hy. lia. }
    split.
    + unfold Qle, ulp_half. cbn [Qnum Qden Qmult Qminus Qplus Qopp].
      rewrite Z2Pos.id by exact HP.
      rewrite !Pos2Z.inj_mul. nia.
    + unfold Qle, ulp_half. cbn [Qnum Qden Qmult Qminus Qplus Qopp].
      rewrite Z2Pos.id by exact HP.
      rewrite !Pos2Z.inj_mul. nia.
Qed.

Lemma fdiv_bounds x p :
  (0 <= x)%Q -> 0 < p ->
  ((1 - ulp_half) * x <= inject_Z p * fdiv x p
   /\ inject_Z p * fdiv x p <= (1 + ulp_half) * x
   /\ 0 <= fdiv x p)%Q.
Proof.
  intros Hx Hp. unfold fdiv, nearest.
  assert (Hpq : (0 < inject_Z p)%Q).
  { change 0%Q with (inject_Z 0). rewrite <- Zlt_Qlt. exact Hp. }
  set (y := (x / inject_Z p)%Q).
  assert (Hxy : (x == inject_Z p * y)%Q).
  { unfold y. field. lra. }
  assert (Hy : (0 <= y)%Q).
  { unfold y. apply Qle_shift_div_l; [exact Hpq|]. lra. }
  destruct (nearest_with_bounds 1100 y ltac:(lia) Hy) as [Hlo Hhi].
  set (r := nearest_with 1100 y) in *. unfold ulp_half in *.
  repeat split.
  - rewrite Hxy. nra.
  - rewrite Hxy. nra.
  - lra.
Qed.

Ltac bound_fdiv :=
  match goal with
  | |- context [fdiv ?x ?p] =>
      is_var x;
      let H := fresh "H" in
      let Hx := fresh "Hx" in
      assert (Hx : (0 <= x)%Q) by lra;
      pose proof (fdiv_bounds x p Hx ltac:(lia)) as H;
      let y := fresh "y" in
      set (y := fdiv x p) in *; clearbody y
  end.

(** An integer scaled down by up to fifteen decimal places, in at most
    four rounded divisions, stays within the tolerance of the exact
    quotient. *)
Lemma scale_down_close (k : positive) (D : Z) :
  (k < 16)%positive -> 0 <= D ->
  ((1 - tolerance) * (inject_Z D * (1 # Z.to_pos (10 ^ Zpos k)))
     <= scale_down k 10 (inject_Z D)
   /\ scale_down k 10 (inject_Z D)
     <= (1 + tolerance) * (inject_Z D * (1 # Z.to_pos (10 ^ Zpos k))))%Q.
Proof.
  intros Hk HD.
  assert (H0 : (0 <= inject_Z D)%Q).
  { change 0%Q with (inject_Z 0). rewrite <- Zle_Qle. exact HD. }
  set (x := inject_Z D) in *. clearbody x. unfold tolerance.
  do 4 (try destruct k as [k|k|]); try lia;
    cbn [scale_down]; change (10 * 10) with 100;
    change (100 * 100) with 10000; change (10000 * 10000) with 100000000;
    repeat bound_fdiv;
    match goal with
    | |- context [Z.to_pos ?z] => let v := eval vm_compute in (Z.to_pos z) in
                                  change (Z.to_pos z) with v
    end; unfold inject_Z, ulp_half in *; lra.
Qed.

Lemma digits_value_nonneg s acc : 0 <= acc -> 0 <= digits_value acc s.
Proof.
  revert acc. induction s as [|c s IH]; intros acc Hacc; cbn; [exact Hacc|].
  apply IH. pose proof (N2Z.is_nonneg (code c - 48)). lia.
Qed.

Lemma literal_parts_length s ip fp :
  literal_parts s = Some (ip, fp) -> (String.length fp < 16)%nat.
Proof.
  unfold literal_parts.
  destruct (split_on "." s) as [|a [|b [|? ?]]]; try discriminate.
  - destruct (_ && _); [|discriminate]. intros [= <- <-]. cbn. lia.
  - destruct (_ && _) eqn:H; [|discriminate]. intros [= <- <-].
    apply andb_true_iff in H as [_ H]. apply Nat.leb_le in H. lia.
Qed.

Lemma close_opp x q : close x q -> close (- x) (- q).
Proof.
  unfold close. intros H.
  assert ((- x - - q == - (x - q))%Q) as -> by ring.
  rewrite !Qabs_opp. exact H.
Qed.

Lemma close_bounds x q :
  (0 <= q)%Q ->
  ((1 - tolerance) * q <= x)%Q -> (x <= (1 + tolerance) * q)%Q ->
  close x q.
Proof.
  intros Hq Hlo Hhi. unfold close.
  rewrite (Qabs_pos q Hq). apply Qabs_Qle_condition.
  unfold tolerance in *. split; lra.
Qed.

(** The converter's result is within the tolerance of what the literal
    denotes. *)
Lemma xstrtod_close ip fp :
  (String.length fp < 16)%nat -> close (xstrtod ip fp) (exact_value ip fp).
Proof.
  intros Hlen. unfold xstrtod, exact_value.
  pose proof (digits_value_nonneg (ip +:+ fp) 0 ltac:(lia)) as HD.
  set (D := digits_value 0 (ip +:+ fp)) in *. clearbody D.
  assert (H0 : (0 <= inject_Z D)%Q).
  { change 0%Q with (inject_Z 0). rewrite <- Zle_Qle. exact HD. }
  assert (Hexact : forall P : positive,
             (D # P == inject_Z D * (1 # P))%Q).
  { intros P. unfold Qeq. cbn. lia. }
  assert (Hpos : forall P : positive, (0 <= inject_Z D * (1 # P))%Q).
  { intros P. apply Qmult_le_0_compat; [exact H0|]. unfold Qle. cbn. lia. }
  unfold close. rewrite Qred_correct. fold (close
    match N.of_nat (String.length fp) with
    | 0%N => inject_Z D
    | N.pos n => scale_down n 10 (inject_Z D)
    end (D # Z.to_pos (10 ^ Z.of_nat (String.length fp)))).
  destruct (N.of_nat (String.length fp)) as [|k] eqn:Hk.
  - assert (String.length fp = 0%nat) as -> by lia.
    change (Z.to_pos (10 ^ Z.of_nat 0)) with 1%positive.
    change (D # 1) with (inject_Z D).
    apply close_bounds; unfold tolerance; lra.
  - assert (Z.of_nat (String.length fp) = Zpos k) as -> by lia.
    assert (Hk16 : (k < 16)%positive) by lia.
    destruct (scale_down_close k D Hk16 HD) as [Hlo Hhi].
    unfold close. rewrite (Hexact (Z.to_pos (10 ^ Zpos k))).
    apply close_bounds; [apply Hpos|exact Hlo|exact Hhi].
Qed.

Lemma unsigned_number_close s x :
  unsigned_number s = Some x ->
  exists q, unsigned_exact s = Some q /\ close x q.
Proof.
  unfold unsigned_number, unsigned_exact.
  destruct (literal_parts s) as [[ip fp]|] eqn:Hparts; [|discriminate].
  cbn. intros [= <-]. eexists. split; [reflexivity|].
  apply xstrtod_close. eapply literal_parts_length. exact Hparts.
Qed.

Lemma cell_number_close c x :
  cell_number c = Some x -> exists q, cell_exact c = Some q /\ close x q.
Proof.
  unfold cell_number, cell_exact, signed. destruct c as [|a c].
  - apply unsigned_number_close.
  - destruct (Ascii.eqb a "-"); [|apply unsigned_number_close].
    destruct (unsigned_number c) as [y|] eqn:Hy; [|discriminate].
    cbn. intros [= <-].
    destruct (unsigned_number_close c y Hy) as (q & -> & Hq).
    cbn. eexists. split; [reflexivity|]. apply close_opp. exact Hq.
Qed.

End Numbers.

(** ** The Data Loader *)

Lemma data_loader_run e s :
  data_loader e s =
    (match net e URL return result loc * state with
     | None => (Raise URLError, record (EHttpGet URL) s)
     | Some text =>
         match read_table text with
         | Ok df =>
             (Ok (length (heap s)),
              {| disk := disk s; heap := heap s ++ [values df];
                 log := log s ++ [EHttpGet URL] |})
         | Raise x => (Raise x, record (EHttpGet URL) s)
         | Unmodelled => (Unmodelled, record (EHttpGet URL) s)
         end
     end).
Proof.
  unfold data_loader, bind, read_csv, as_matrix.
  destruct (net e URL) as [text|]; [|reflexivity].
  destruct (read_table text); reflexivity.
Qed.

(** C1, as stated, fails: the CSV [10,20 / 30,40] has two rows of two
    numeric cells, and the Grid the loader produces has one row, because
    the first line is taken as the header. *)
Lemma numeric_csv_loses_first_row :
  tokenize csv_2x2 = [["10"; "20"]; ["30"; "40"]] /\
  Forall (Forall numeric_literal) (tokenize csv_2x2) /\
  exists s',
    data_loader (serving csv_2x2 true) initial = (Ok 0%nat, s') /\
    heap s' !! 0%nat = Some [[int 30; int 40]] /\
    length [[int 30; int 40]] <> length (tokenize csv_2x2).
Proof.
  split; [reflexivity|]. split.
  - repeat constructor; eexists; vm_compute; reflexivity.
  - eexists. split; [vm_compute; reflexivity|].
    split; [reflexivity|]. cbn. discriminate.
Qed.

(** C1, amended: for a CSV whose first non-blank line is a header of C
    labels, followed by R data lines of C numeric cells each (plain decimal
    literals: an optional minus sign, digits, an optional fractional part,
    at most 15 digits), the loader produces a Grid of exactly R rows and C
    columns, and cell (i, j) of the Grid is a number that equals, within
    floating-point tolerance, the number written in cell j of data line
    i. *)
Theorem loader_grid_matches_data_rows e s text header rows :
  net e URL = Some text ->
  tokenize text = header :: rows ->
  forallb label_ok header = true ->
  Forall (fun r => length r = length header /\ Forall numeric_literal r) rows ->
  exists g,
    data_loader e s =
      (Ok (length (heap s)),
       {| disk := disk s; heap := heap s ++ [g];
          log := log s ++ [EHttpGet URL] |}) /\
    length g = length rows /\
    Forall (fun row => length row = length header) g /\
    forall i j r c,
      rows !! i = Some r -> r !! j = Some c ->
      exists x q,
        cell g i j = Some (VNum x) /\ cell_exact c = Some q /\ close x q.
Proof.
  intros Hnet Htok Hhead Hrows.
  exists ((fun r : list string => convert_cell true <$> r) <$> rows).
  split; [|split; [|split]].
  - rewrite data_loader_run, Hnet.
    rewrite (read_table_ok text header rows Htok Hhead).
    + rewrite (convert_numeric header rows Hrows). reflexivity.
    + eapply Forall_impl; [exact Hrows|]. intros r [_ Hr].
      eapply Forall_impl; [exact Hr|]. apply numeric_literal_ok.
    + eapply Forall_impl; [exact Hrows|]. intros r [Hr _]. lia.
  - apply length_fmap.
  - rewrite Forall_fmap. eapply Forall_impl; [exact Hrows|].
    intros r [Hr _]. cbn. rewrite length_fmap. exact Hr.
  - intros i j r c Hi Hj.
    assert (Hc : numeric_literal c).
    { rewrite Forall_forall in Hrows.
      destruct (Hrows r) as [_ Hr]; [eapply list_elem_of_lookup_2; exact Hi|].
      rewrite Forall_forall in Hr. apply Hr.
      eapply list_elem_of_lookup_2; exact Hj. }
    destruct Hc as [x Hx].
    destruct (cell_number_close c x Hx) as (q & Hq & Hclose).
    exists x, q. split; [|split; [exact Hq | exact Hclose]].
    unfold cell. rewrite list_lookup_fmap, Hi. cbn.
    rewrite list_lookup_fmap, Hj. cbn.
    unfold convert_cell. rewrite (classify_number _ _ Hx). reflexivity.
Qed.

Lemma loader_grid_matches_data_rows_witness :
  heap (snd (data_loader (serving csv_with_header true) initial)) !! 0%nat
    = Some [[VNum (3602879701896397 # 36028797018963968); int (-2)];
            [int 3; VNum (9 # 2)]] /\
  cell_exact "0.1" = Some (1 # 10) /\
  exists g,
    data_loader (serving csv_with_header true) initial =
      (Ok (length (heap initial)),
       {| disk := disk initial; heap := heap initial ++ [g];
          log := log initial ++ [EHttpGet URL] |}) /\
    length g = length [["0.1"; "-2"]; ["3"; "4.5"]] /\
    Forall (fun row => length row = length ["x"; "y"]) g /\
    forall i j r c,
      [["0.1"; "-2"]; ["3"; "4.5"]] !! i = Some r -> r !! j = Some c ->
      exists x q,
        cell g i j = Some (VNum x) /\ cell_exact c = Some q /\ close x q.
Proof.
  split; [vm_compute; reflexivity|]. split; [vm_compute; reflexivity|].
  apply (loader_grid_matches_data_rows (serving csv_with_header true) initial
           csv_with_header ["x"; "y"] [["0.1"; "-2"]; ["3"; "4.5"]]).
  - reflexivity.
  - vm_compute. reflexivity.
  - vm_compute. reflexivity.
  - repeat constructor; eexists; vm_compute; reflexivity.
Defined.

(** C10: every Grid the loader produces is rectangular: all its rows have
    one and the same length, also when the lines of the CSV do not (short
    lines are completed, a long one makes the read fail). *)
Theorem loader_grid_rectangular e s l s' :
  data_loader e s = (Ok l, s') ->
  exists g n,
    heap s' !! l = Some g /\ Forall (fun row => length row = n) g.
Proof.
  rewrite data_loader_run.
  destruct (net e URL) as [text|]; [|discriminate].
  destruct (read_table text) as [df| |] eqn:Hread; try discriminate.
  intros [= <- <-]. exists (values df), (length (columns df)).
  split.
  - cbn. rewrite lookup_app_r by lia. rewrite Nat.sub_diag. reflexivity.
  - apply read_table_rectangular with text. exact Hread.
Qed.

Lemma loader_grid_rectangular_witness :
  heap (snd (data_loader (serving csv_ragged true) initial)) !! 0%nat
    = Some [[int 1; int 2; VNaN]; [int 3; int 4; int 5]] /\
  exists g n,
    heap (snd (data_loader (serving csv_ragged true) initial)) !! 0%nat
      = Some g /\
    Forall (fun row => length row = n) g.
Proof.
  split; [vm_compute; reflexivity|].
  apply (loader_grid_rectangular (serving csv_ragged true) initial 0%nat).
  vm_compute. reflexivity.
Defined.

(** C3, as stated, fails: the CSV [x,y / 1,2.5 / 3,peak] has the text
    [peak] where a number is expected; the read succeeds, the column is
    kept as strings, and the run goes on to submit the figure. *)
Lemma text_cell_is_read :
  cell_number "peak" = None /\
  exists s',
    main (serving csv_text_cell true) initial = (Ok tt, s') /\
    heap s' !! 0%nat = Some [[int 1; VStr "2.5"]; [int 3; VStr "peak"]] /\
    exists fig, last (log s') = Some (EPlotPost fig "elevations-3d-surface").
Proof.
  split; [reflexivity|].
  eexists. split; [vm_compute; reflexivity|].
  split; [reflexivity|]. eexists. reflexivity.
Qed.

Lemma word_cell_converted header rows i j r c :
  Forall (fun r => (length r <= length header)%nat) rows ->
  rows !! i = Some r -> r !! j = Some c ->
  classify c = CWord ->
  cell (values (convert header rows)) i j = Some (VStr c).
Proof.
  intros Hlen Hi Hj Hc.
  assert (Hjr : (j < length r)%nat) by (eapply lookup_lt_Some; exact Hj).
  assert (Hrh : (length r <= length header)%nat).
  { rewrite Forall_forall in Hlen. apply Hlen.
    eapply list_elem_of_lookup_2; exact Hi. }
  destruct (lookup_lt_is_Some_2
              (column_kinds (length header) (pad (length header) <$> rows)) j)
    as [k Hk].
  { rewrite column_kinds_length. lia. }
  unfold cell. cbn [convert values].
  rewrite list_lookup_fmap, list_lookup_fmap, Hi. cbn.
  unfold convert_row. rewrite lookup_zip_with, Hk. cbn.
  unfold pad. rewrite lookup_app_l by exact Hjr. rewrite Hj. cbn.
  unfold convert_cell. rewrite Hc. reflexivity.
Qed.

(** C3, amended: for a CSV (header line of labels first, every cell a
    plain decimal literal, empty, or a plain word, no data line longer than
    the header) that holds, where a number is expected, a plain word (ASCII
    letters, none of the spellings na, nan, null, none, inf, infinity,
    true, false in any letter case), the parse step does not fail: no
    LoadError is raised, the cell is not coerced to zero, NaN or any other
    value but kept in the Grid as the text it is, and the pipeline
    continues: the figure over that Grid is submitted, and the run ends
    normally or with the service's refusal. *)
Theorem text_cell_kept_as_text e s text header rows i j r c :
  net e URL = Some text ->
  tokenize text = header :: rows ->
  forallb label_ok header = true ->
  Forall (Forall (fun c => cell_ok c = true)) rows ->
  Forall (fun r => (length r <= length header)%nat) rows ->
  rows !! i = Some r -> r !! j = Some c ->
  classify c = CWord ->
  exists g res fig s',
    main e s = (res, s') /\
    (res = Ok tt \/ res = Raise PlotlyError) /\
    heap s' !! length (heap s) = Some g /\
    cell g i j = Some (VStr c) /\
    data fig = [{| z := length (heap s) |}] /\
    last (log s') = Some (EPlotPost fig "elevations-3d-surface").
Proof.
  intros Hnet Htok Hhead Hcells Hlen Hi Hj Hc.
  destruct (main_run e s) as (fig & Hfig & Hrun).
  rewrite Hnet in Hrun.
  rewrite (read_table_ok text header rows Htok Hhead Hcells Hlen) in Hrun.
  exists (values (convert header rows)). eexists. exists fig. eexists.
  split; [exact Hrun|]. split; [|split; [|split; [|split]]].
  - destruct (service _ _ _ _); [left|right]; reflexivity.
  - cbn [heap record loaded]. rewrite lookup_app_r by lia.
    rewrite Nat.sub_diag. reflexivity.
  - apply (word_cell_converted header rows i j r c Hlen Hi Hj Hc).
  - revert Hfig. step_builder. cbn [fst]. intros [= <-]. reflexivity.
  - cbn [log record]. apply last_snoc.
Qed.

Lemma text_cell_kept_as_text_witness :
  exists g res fig s',
    main (serving csv_text_cell false) initial = (res, s') /\
    (res = Ok tt \/ res = Raise PlotlyError) /\
    heap s' !! length (heap initial) = Some g /\
    cell g 1 1 = Some (VStr "peak") /\
    data fig = [{| z := length (heap initial) |}] /\
    last (log s') = Some (EPlotPost fig "elevations-3d-surface").
Proof.
  apply (text_cell_kept_as_text (serving csv_text_cell false) initial
           csv_text_cell ["x"; "y"] [["1"; "2.5"]; ["3"; "peak"]]
           1%nat 1%nat ["3"; "peak"] "peak").
  - reflexivity.
  - vm_compute. reflexivity.
  - vm_compute. reflexivity.
  - repeat constructor.
  - repeat constructor.
  - reflexivity.
  - reflexivity.
  - vm_compute. reflexivity.
Defined.

(** ** The Figure Builder *)

(** C4: whatever the grid, the Figure's layout carries width 500, height
    500, autosize false, title Mt Bruno Elevation and the margins l=65,
    r=50, b=65, t=90 and no others. *)
Theorem layout_constants e s (grid : loc) fig s' :
  figure_builder grid e s = (Ok fig, s') ->
  width (layout fig) = 500 /\
  height (layout fig) = 500 /\
  autosize (layout fig) = false /\
  title (layout fig) = "Mt Bruno Elevation" /\
  margin (layout fig) !! "l" = Some 65 /\
  margin (layout fig) !! "r" = Some 50 /\
  margin (layout fig) !! "b" = Some 65 /\
  margin (layout fig) !! "t" = Some 90 /\
  size (margin (layout fig)) = 4%nat.
Proof.
  step_builder. intros [= <- _]. cbn [layout width height autosize title margin].
  repeat split; vm_compute; reflexivity.
Qed.

Lemma layout_constants_witness :
  let fig := {| data := [{| z := 7%nat |}];
                layout := {| title := "Mt Bruno Elevation"; autosize := false;
                             width := 500; height := 500;
                             margin := <["l" := 65]> (<["r" := 50]>
                                       (<["b" := 65]> (<["t" := 90]> ∅))) |} |} in
  width (layout fig) = 500 /\
  height (layout fig) = 500 /\
  autosize (layout fig) = false /\
  title (layout fig) = "Mt Bruno Elevation" /\
  margin (layout fig) !! "l" = Some 65 /\
  margin (layout fig) !! "r" = Some 50 /\
  margin (layout fig) !! "b" = Some 65 /\
  margin (layout fig) !! "t" = Some 90 /\
  size (margin (layout fig)) = 4%nat.
Proof.
  intros fig.
  apply (layout_constants offline initial 7%nat fig initial).
  reflexivity.
Defined.

(** ** Whole runs *)

(** C2, as stated, fails: on the CSV [1,2,3 / 4,5,6 / 7,8,9] the loader's
    Grid is [[4,5,6],[7,8,9]], not the three-row matrix: the line [1,2,3]
    became the header. *)
Lemma three_by_three_grid_has_two_rows :
  exists s',
    data_loader (serving csv_3x3 true) initial = (Ok 0%nat, s') /\
    heap s' !! 0%nat = Some [[int 4; int 5; int 6]; [int 7; int 8; int 9]] /\
    heap s' !! 0%nat
      <> Some [[int 1; int 2; int 3]; [int 4; int 5; int 6];
               [int 7; int 8; int 9]].
Proof.
  eexists. split; [vm_compute; reflexivity|].
  split; [reflexivity|]. cbn. discriminate.
Qed.

(** C2, amended: on the CSV [1,2,3 / 4,5,6 / 7,8,9] a run allocates the
    Grid [[4,5,6],[7,8,9]] (the first line names the columns), builds a
    Figure with exactly one surface trace, which refers to that Grid, and
    makes exactly one submission, of that Figure under the name
    elevations-3d-surface; the run ends normally or, when the service
    refuses, with the service's error. *)
Theorem three_by_three_run e s :
  net e URL = Some csv_3x3 ->
  exists fig r,
    main e s =
      (r, {| disk := <[CREDENTIALS_FILE := the_credentials]> (disk s);
             heap := heap s ++ [[[int 4; int 5; int 6]; [int 7; int 8; int 9]]];
             log := log s ++ [EFileWrite CREDENTIALS_FILE the_credentials;
                              EHttpGet URL;
                              EPlotPost fig "elevations-3d-surface"] |}) /\
    data fig = [{| z := length (heap s) |}] /\
    (r = Ok tt \/ r = Raise PlotlyError).
Proof.
  intros Hnet. destruct (main_run e s) as (fig & Hfig & Hrun).
  rewrite Hnet in Hrun.
  assert (Hread : read_table csv_3x3
                  = Ok {| columns := ["1"; "2"; "3"];
                          values := [[int 4; int 5; int 6];
                                     [int 7; int 8; int 9]] |})
    by (vm_compute; reflexivity).
  rewrite Hread in Hrun. cbn [values] in Hrun.
  exists fig. eexists. split; [|split].
  - rewrite Hrun. f_equal. unfold record, loaded, requested, record, configured.
    cbn [disk heap log]. rewrite <- !app_assoc. reflexivity.
  - revert Hfig. step_builder. cbn [fst]. intros [= <-]. reflexivity.
  - destruct (service _ _ _ _); [left|right]; reflexivity.
Qed.

Lemma three_by_three_run_witness :
  exists fig r,
    main (serving csv_3x3 true) initial =
      (r, {| disk := <[CREDENTIALS_FILE := the_credentials]> (disk initial);
             heap := heap initial
                     ++ [[[int 4; int 5; int 6]; [int 7; int 8; int 9]]];
             log := log initial
                    ++ [EFileWrite CREDENTIALS_FILE the_credentials;
                        EHttpGet URL;
                        EPlotPost fig "elevations-3d-surface"] |}) /\
    data fig = [{| z := length (heap initial) |}] /\
    (r = Ok tt \/ r = Raise PlotlyError).
Proof.
  apply (three_by_three_run (serving csv_3x3 true) initial). reflexivity.
Defined.

(** C5: when the CSV resource is unreachable the loader raises a LoadError
    (urllib's URLError), whatever would have followed the loader is not
    run, so no Figure is built and nothing is submitted, and the state is
    the one the loader was invoked in: same files, same arrays, the log
    grown by the failed request only. *)
Theorem unreachable_source_stops_run e s :
  net e URL = None ->
  main e s = (Raise URLError, record (EHttpGet URL) (configured s)) /\
  is_load_error URLError = true /\
  (forall (B : Type) (k : loc -> M B),
     (configure ;;; grid <- data_loader ;; k grid) e s
     = (Raise URLError, record (EHttpGet URL) (configured s))) /\
  disk (snd (main e s)) = disk (configured s) /\
  heap (snd (main e s)) = heap s /\
  log (snd (main e s)) = log (configured s) ++ [EHttpGet URL] /\
  Forall (fun ev => is_plot_post ev = false)
         (drop (length (log s)) (log (snd (main e s)))).
Proof.
  intros Hnet.
  assert (Hk : forall (B : Type) (k : loc -> M B),
             (configure ;;; grid <- data_loader ;; k grid) e s
             = (Raise URLError, record (EHttpGet URL) (configured s))).
  { intros B k. unfold bind at 1. rewrite configure_run.
    unfold bind. rewrite data_loader_run, Hnet. reflexivity. }
  destruct (main_run e s) as (fig & _ & Hrun). rewrite Hnet in Hrun.
  rewrite Hrun. repeat split; try reflexivity; [apply Hk|].
  cbn [snd requested record configured log].
  rewrite <- app_assoc, drop_app_length. repeat constructor.
Qed.

Lemma unreachable_source_stops_run_witness :
  main offline initial
    = (Raise URLError, record (EHttpGet URL) (configured initial)) /\
  is_load_error URLError = true /\
  (forall (B : Type) (k : loc -> M B),
     (configure ;;; grid <- data_loader ;; k grid) offline initial
     = (Raise URLError, record (EHttpGet URL) (configured initial))) /\
  disk (snd (main offline initial)) = disk (configured initial) /\
  heap (snd (main offline initial)) = heap initial /\
  log (snd (main offline initial)) = log (configured initial) ++ [EHttpGet URL] /\
  Forall (fun ev => is_plot_post ev = false)
         (drop (length (log initial)) (log (snd (main offline initial)))).
Proof.
  apply (unreachable_source_stops_run offline initial). reflexivity.
Defined.

Lemma figure_value_run e s :
  exists fig0,
    fst (figure_builder 0%nat e s) = Ok fig0 /\
    figure_value (load_and_build e s) =
      (match net e URL return result Payload with
       | None => Raise URLError
       | Some text =>
           match read_table text with
           | Ok df => Ok {| traces := [values df]; display := layout fig0 |}
           | Raise x => Raise x
           | Unmodelled => Unmodelled
           end
       end).
Proof.
  eexists. step_builder. split; [reflexivity|].
  destruct (load_and_build_run e s) as (fig & Hfig & ->).
  destruct (net e URL) as [text|]; [|reflexivity].
  destruct (read_table text) as [df| |]; try reflexivity.
  revert Hfig. step_builder. cbn [fst]. intros [= <-].
  unfold figure_value, loaded. cbn [heap]. rewrite resolve_fresh. reflexivity.
Qed.

(** C6: two runs that are served the same CSV resource build the same
    Figure value, the same grid contents under the same layout (or both
    stop with the same error), whatever state each run starts in and
    whatever the hosted service answers to either submission; in
    particular a second run that follows a first one. *)
Theorem same_source_same_figure e1 e2 s1 s2 :
  net e1 URL = net e2 URL ->
  figure_value (load_and_build e1 s1) = figure_value (load_and_build e2 s2) /\
  figure_value (load_and_build e2 (snd (main e1 s1)))
  = figure_value (load_and_build e1 s1).
Proof.
  intros Hnet.
  assert (Hany : forall sa sb,
             figure_value (load_and_build e1 sa)
             = figure_value (load_and_build e2 sb)).
  { intros sa sb.
    destruct (figure_value_run e1 sa) as (fig1 & Hfig1 & ->).
    destruct (figure_value_run e2 sb) as (fig2 & Hfig2 & ->).
    rewrite <- Hnet.
    revert Hfig1 Hfig2. step_builder. cbn [fst]. intros [= <-] [= <-].
    reflexivity. }
  split; [apply Hany|]. symmetry. apply Hany.
Qed.

Lemma same_source_same_figure_witness :
  figure_value (load_and_build (serving csv_3x3 true) initial)
  = figure_value (load_and_build (serving csv_3x3 false)
                    (snd (main (serving csv_2x2 true) initial))) /\
  figure_value (load_and_build (serving csv_3x3 false)
                  (snd (main (serving csv_3x3 true) initial)))
  = figure_value (load_and_build (serving csv_3x3 true) initial).
Proof.
  apply (same_source_same_figure (serving csv_3x3 true) (serving csv_3x3 false)
           initial (snd (main (serving csv_2x2 true) initial))).
  reflexivity.
Defined.

(** C7: in a run whose CSV is read, the Grid is allocated once, by the
    loader, with the values parsed from the CSV; when the run is over the
    heap is the old heap followed by that one array, still holding those
    values; the submitted Figure's single surface trace refers to it; and
    neither building a figure nor submitting one changes any array. *)
Theorem grid_created_once_and_kept e s text df :
  net e URL = Some text ->
  read_table text = Ok df ->
  (exists s1,
     data_loader e (configured s) = (Ok (length (heap s)), s1) /\
     heap s1 = heap s ++ [values df]) /\
  (exists r fig,
     main e s = (r, record (EPlotPost fig "elevations-3d-surface")
                           (loaded s (values df))) /\
     data fig = [{| z := length (heap s) |}]) /\
  heap (snd (main e s)) = heap s ++ [values df] /\
  heap (snd (main e s)) !! length (heap s) = Some (values df) /\
  (forall e' s' (grid : loc),
     heap (snd (figure_builder grid e' s')) = heap s') /\
  (forall e' s' fig, heap (snd (renderer_client fig e' s')) = heap s').
Proof.
  intros Hnet Hread.
  destruct (main_run e s) as (fig & Hfig & Hrun).
  rewrite Hnet, Hread in Hrun.
  split; [|split; [|split; [|split; [|split]]]].
  - rewrite data_loader_run, Hnet, Hread. eexists. split; reflexivity.
  - eexists _, fig. split; [exact Hrun|].
    revert Hfig. step_builder. cbn [fst]. intros [= <-]. reflexivity.
  - rewrite Hrun. reflexivity.
  - rewrite Hrun. cbn. rewrite lookup_app_r by lia.
    rewrite Nat.sub_diag. reflexivity.
  - intros e' s' grid. step_builder. reflexivity.
  - intros e' s' fig'. clear. unfold renderer_client, iplot.
    destruct (disk s' !! CREDENTIALS_FILE) as [c|]; [|reflexivity].
    destruct (resolve (heap s') fig') as [p|]; [|reflexivity].
    destruct (service e' c p "elevations-3d-surface"); reflexivity.
Qed.

Lemma grid_created_once_and_kept_witness :
  exists g,
    heap (snd (main (serving csv_ragged true) initial)) = heap initial ++ [g] /\
    heap (snd (main (serving csv_ragged true) initial)) !! length (heap initial)
      = Some g.
Proof.
  exists [[int 1; int 2; VNaN]; [int 3; int 4; int 5]].
  pose proof (grid_created_once_and_kept (serving csv_ragged true) initial
                csv_ragged
                {| columns := ["a"; "b"; "c"];
                   values := [[int 1; int 2; VNaN]; [int 3; int 4; int 5]] |})
    as H.
  destruct H as (_ & _ & H1 & H2 & _).
  - reflexivity.
  - vm_compute. reflexivity.
  - split; [exact H1 | exact H2].
Defined.

(** ** Further properties of the script *)

Lemma main_outcome e s :
  main e s =
    (match net e URL return result unit * state with
     | None => (Raise URLError, requested s)
     | Some text =>
         match read_table text with
         | Ok df =>
             (if service e the_credentials (submitted df)
                   "elevations-3d-surface"
              then Ok tt else Raise PlotlyError,
              record (EPlotPost (surface_figure (length (heap s)))
                                "elevations-3d-surface")
                     (loaded s (values df)))
         | Raise x => (Raise x, requested s)
         | Unmodelled => (Unmodelled, requested s)
         end
     end).
Proof.
  destruct (main_run e s) as (fig & Hfig & ->).
  revert Hfig. step_builder. cbn [fst]. intros [= <-]. reflexivity.
Qed.

Lemma new_events_app (s s' : state) (evs : list event) :
  log s' = log s ++ evs -> new_events s s' = evs.
Proof. intros H. unfold new_events. rewrite H. apply drop_app_length. Qed.

Lemma new_events_requested s :
  new_events s (requested s)
  = [EFileWrite CREDENTIALS_FILE the_credentials; EHttpGet URL].
Proof.
  apply new_events_app. cbn. rewrite <- app_assoc. reflexivity.
Qed.

Lemma new_events_posted s g fig name :
  new_events s (record (EPlotPost fig name) (loaded s g))
  = [EFileWrite CREDENTIALS_FILE the_credentials; EHttpGet URL;
     EPlotPost fig name].
Proof.
  apply new_events_app. cbn. rewrite <- !app_assoc. reflexivity.
Qed.

(** The only exceptions reading a table raises are pandas' own two. *)
Lemma read_table_raises text x :
  read_table text = Raise x -> x = EmptyDataError \/ x = ParserError.
Proof.
  unfold read_table. destruct (tokenize text) as [|header rows].
  - intros [= <-]. left. reflexivity.
  - destruct (negb _); [discriminate|].
    destruct rows as [|r1 rest]; [discriminate|].
    destruct (too_long _ r1); [discriminate|].
    destruct (existsb _ rest); [|discriminate].
    intros [= <-]. right. reflexivity.
Qed.

(** X1: a run that ends normally has fetched the CSV, read it as a
    table, and had its submission accepted by the service; that submission
    was signed with the pair of lines 4-5, whatever credentials were stored
    before, carried the table's values as its one trace under the fixed
    layout, and was named elevations-3d-surface. *)
Theorem normal_end_requires e s :
  fst (main e s) = Ok tt ->
  exists text df,
    net e URL = Some text /\ read_table text = Ok df /\
    service e the_credentials (submitted df) "elevations-3d-surface" = true /\
    heap (snd (main e s)) = heap s ++ [values df].
Proof.
  rewrite main_outcome.
  destruct (net e URL) as [text|]; [|discriminate].
  destruct (read_table text) as [df| |] eqn:Hread; try discriminate.
  cbn [fst snd]. destruct (service _ _ _ _) eqn:Hsrv; [|discriminate].
  intros _. exists text, df. repeat split; try assumption.
Qed.

Lemma normal_end_requires_witness :
  exists text df,
    net (serving csv_ragged true) URL = Some text /\
    read_table text = Ok df /\
    service (serving csv_ragged true) the_credentials (submitted df)
      "elevations-3d-surface" = true /\
    heap (snd (main (serving csv_ragged true) initial))
    = heap initial ++ [values df].
Proof.
  apply (normal_end_requires (serving csv_ragged true) initial).
  vm_compute. reflexivity.
Defined.

(** X2: a run calls the renderer only after the CSV was fetched and read
    as a table; the call is then the run's last effect, after the
    credentials write and the request, it is the only such call, and it
    passes the figure over the array this run allocated from that table. *)
Theorem submission_requires_table e s :
  Exists (fun ev => is_plot_post ev = true) (new_events s (snd (main e s))) ->
  exists text df,
    net e URL = Some text /\ read_table text = Ok df /\
    new_events s (snd (main e s))
    = [EFileWrite CREDENTIALS_FILE the_credentials; EHttpGet URL;
       EPlotPost (surface_figure (length (heap s)))
                 "elevations-3d-surface"] /\
    heap (snd (main e s)) !! length (heap s) = Some (values df).
Proof.
  assert (Hnone : ~ Exists (fun ev => is_plot_post ev = true)
                    [EFileWrite CREDENTIALS_FILE the_credentials;
                     EHttpGet URL]).
  { intros H. rewrite !Exists_cons, Exists_nil in H.
    destruct H as [H|[H|[]]]; discriminate H. }
  rewrite main_outcome.
  destruct (net e URL) as [text|].
  - destruct (read_table text) as [df| |] eqn:Hread; cbn [snd].
    + intros _. exists text, df. rewrite new_events_posted.
      repeat split; try assumption.
      cbn. rewrite lookup_app_r by lia. rewrite Nat.sub_diag. reflexivity.
    + rewrite new_events_requested. intros H. destruct (Hnone H).
    + rewrite new_events_requested. intros H. destruct (Hnone H).
  - cbn [snd]. rewrite new_events_requested. intros H. destruct (Hnone H).
Qed.

Lemma submission_requires_table_witness :
  exists text df,
    net (serving csv_text_cell false) URL = Some text /\
    read_table text = Ok df /\
    new_events initial (snd (main (serving csv_text_cell false) initial))
    = [EFileWrite CREDENTIALS_FILE the_credentials; EHttpGet URL;
       EPlotPost (surface_figure (length (heap initial)))
                 "elevations-3d-surface"] /\
    heap (snd (main (serving csv_text_cell false) initial))
      !! length (heap initial) = Some (values df).
Proof.
  apply (submission_requires_table (serving csv_text_cell false) initial).
  vm_compute. right. right. left. reflexivity.
Defined.

(** X3: when reading the fetched text raises, that exception ends the
    run; it counts as a LoadError; no array is allocated, nothing is
    submitted, and the state is the one left by the request. *)
Theorem parse_failure_stops_run e s text x :
  net e URL = Some text ->
  read_table text = Raise x ->
  main e s = (Raise x, requested s) /\
  is_load_error x = true /\
  heap (snd (main e s)) = heap s /\
  Forall (fun ev => is_plot_post ev = false) (new_events s (snd (main e s))).
Proof.
  intros Hnet Hread. rewrite main_outcome, Hnet, Hread. cbn [snd].
  rewrite new_events_requested. repeat split.
  - destruct (read_table_raises _ _ Hread) as [-> | ->]; reflexivity.
  - repeat constructor.
Qed.

Lemma parse_failure_stops_run_witness :
  main (serving csv_long_line true) initial
    = (Raise ParserError, requested initial) /\
  is_load_error ParserError = true /\
  heap (snd (main (serving csv_long_line true) initial)) = heap initial /\
  Forall (fun ev => is_plot_post ev = false)
    (new_events initial (snd (main (serving csv_long_line true) initial))).
Proof.
  apply (parse_failure_stops_run (serving csv_long_line true) initial
           csv_long_line ParserError).
  - reflexivity.
  - vm_compute. reflexivity.
Defined.

(** X4: when the service refuses the submission the run dies of plotly's
    exception, which is not a LoadError; the submission has been made, the
    array the loader allocated is still there with the table's values, and
    the credentials file still holds the pair of lines 4-5. *)
Theorem refused_submission e s text df :
  net e URL = Some text ->
  read_table text = Ok df ->
  service e the_credentials (submitted df) "elevations-3d-surface" = false ->
  main e s =
    (Raise PlotlyError,
     record (EPlotPost (surface_figure (length (heap s)))
                       "elevations-3d-surface")
            (loaded s (values df))) /\
  is_load_error PlotlyError = false /\
  heap (snd (main e s)) !! length (heap s) = Some (values df) /\
  disk (snd (main e s)) !! CREDENTIALS_FILE = Some the_credentials.
Proof.
  intros Hnet Hread Hsrv. rewrite main_outcome, Hnet, Hread, Hsrv.
  repeat split.
  - cbn. rewrite lookup_app_r by lia. rewrite Nat.sub_diag. reflexivity.
  - cbn. apply lookup_insert_eq.
Qed.

Lemma refused_submission_witness :
  main (serving csv_ragged false) initial =
    (Raise PlotlyError,
     record (EPlotPost (surface_figure (length (heap initial)))
                       "elevations-3d-surface")
            (loaded initial [[int 1; int 2; VNaN]; [int 3; int 4; int 5]])) /\
  is_load_error PlotlyError = false /\
  heap (snd (main (serving csv_ragged false) initial)) !! length (heap initial)
    = Some [[int 1; int 2; VNaN]; [int 3; int 4; int 5]] /\
  disk (snd (main (serving csv_ragged false) initial)) !! CREDENTIALS_FILE
    = Some the_credentials.
Proof.
  apply (refused_submission (serving csv_ragged false) initial csv_ragged
           {| columns := ["a"; "b"; "c"];
              values := [[int 1; int 2; VNaN]; [int 3; int 4; int 5]] |}).
  - reflexivity.
  - vm_compute. reflexivity.
  - reflexivity.
Defined.

(** X5: a second run after a first one (each reading its CSV, whatever the
    service answers) allocates an array of its own after the first run's,
    which it leaves as it was; its figure refers to the new array; and the
    files are what the first run left: writing the credentials again
    changes nothing. *)
Theorem second_run_allocates_anew e1 e2 s t1 d1 t2 d2 :
  net e1 URL = Some t1 -> read_table t1 = Ok d1 ->
  net e2 URL = Some t2 -> read_table t2 = Ok d2 ->
  let s1 := snd (main e1 s) in
  let s2 := snd (main e2 s1) in
  heap s2 = heap s ++ [values d1; values d2] /\
  disk s2 = disk s1 /\
  new_events s1 s2
  = [EFileWrite CREDENTIALS_FILE the_credentials; EHttpGet URL;
     EPlotPost (surface_figure (S (length (heap s))))
               "elevations-3d-surface"].
Proof.
  intros Hn1 Hr1 Hn2 Hr2. cbv zeta.
  rewrite (main_outcome e2), Hn2, Hr2. cbn [snd].
  rewrite new_events_posted.
  rewrite (main_outcome e1), Hn1, Hr1. cbn [snd].
  repeat split.
  - cbn. rewrite <- app_assoc. reflexivity.
  - cbn. apply insert_insert_eq.
  - cbn. rewrite length_app. cbn. rewrite Nat.add_1_r. reflexivity.
Qed.

Lemma second_run_allocates_anew_witness :
  let s1 := snd (main (serving csv_3x3 false) initial) in
  let s2 := snd (main (serving csv_2x2 true) s1) in
  heap s2 = heap initial ++ [[[int 4; int 5; int 6]; [int 7; int 8; int 9]];
                             [[int 30; int 40]]] /\
  disk s2 = disk s1 /\
  new_events s1 s2
  = [EFileWrite CREDENTIALS_FILE the_credentials; EHttpGet URL;
     EPlotPost (surface_figure (S (length (heap initial))))
               "elevations-3d-surface"].
Proof.
  apply (second_run_allocates_anew (serving csv_3x3 false)
           (serving csv_2x2 true) initial
           csv_3x3
           {| columns := ["1"; "2"; "3"];
              values := [[int 4; int 5; int 6]; [int 7; int 8; int 9]] |}
           csv_2x2
           {| columns := ["10"; "20"]; values := [[int 30; int 40]] |}).
  - reflexivity.
  - vm_compute. reflexivity.
  - reflexivity.
  - vm_compute. reflexivity.
Defined.

(** ** Further properties of the loader *)

Lemma split_on_cons sep s : exists w ws, split_on sep s = w :: ws.
Proof.
  destruct s as [|c s]; cbn [split_on]; [eauto|].
  destruct (Ascii.eqb c sep); [eauto|].
  destruct (split_on sep s); eauto.
Qed.

Lemma append_nil_l (s : string) : EmptyString +:+ s = s.
Proof. reflexivity. Qed.

Lemma append_cons (c : ascii) (a b : string) :
  String c a +:+ b = String c (a +:+ b).
Proof. reflexivity. Qed.

(** Splitting a text that has a separator in the middle splits both
    sides. *)
Lemma split_on_app sep a b :
  split_on sep (a +:+ String sep b) = split_on sep a ++ split_on sep b.
Proof.
  induction a as [|c a IH].
  - rewrite append_nil_l. cbn [split_on].
    rewrite Ascii.eqb_refl. reflexivity.
  - rewrite append_cons. cbn [split_on]. rewrite IH.
    destruct (Ascii.eqb c sep); [reflexivity|].
    destruct (split_on_cons sep a) as (w & ws & ->). reflexivity.
Qed.

Lemma tokenize_lines a b :
  tokenize (a +:+ String newline b) = tokenize a ++ tokenize b.
Proof.
  unfold tokenize. rewrite split_on_app, filter_app, fmap_app. reflexivity.
Qed.

Lemma tokenize_blank_first b : tokenize (String newline b) = tokenize b.
Proof. apply (tokenize_lines EmptyString b). Qed.

Lemma read_table_tokens t1 t2 :
  tokenize t1 = tokenize t2 -> read_table t1 = read_table t2.
Proof. intros H. unfold read_table. rewrite H. reflexivity. Qed.

(** X6: blank lines do not count: a blank line between two lines, a line
    feed at the end of the text and one at its start all leave what is read
    as it is. *)
Theorem blank_lines_ignored a b :
  read_table (a +:+ nl +:+ nl +:+ b) = read_table (a +:+ nl +:+ b) /\
  read_table (a +:+ nl) = read_table a /\
  read_table (nl +:+ a) = read_table a.
Proof.
  unfold nl. rewrite !append_cons, !append_nil_l.
  split; [|split]; apply read_table_tokens.
  - rewrite !tokenize_lines, tokenize_blank_first. reflexivity.
  - rewrite tokenize_lines. apply app_nil_r.
  - apply tokenize_blank_first.
Qed.

Lemma read_table_shape text df :
  read_table text = Ok df ->
  exists header rows,
    tokenize text = header :: rows /\ columns df = header /\
    length (values df) = length rows.
Proof.
  unfold read_table. destruct (tokenize text) as [|header rows]; [discriminate|].
  destruct (negb _); [discriminate|].
  assert (Hlen : length (values (convert header rows)) = length rows).
  { cbn. rewrite !length_fmap. reflexivity. }
  destruct rows as [|r1 rest].
  - intros [= <-]. exists header, []. repeat split.
  - destruct (too_long _ r1); [discriminate|].
    destruct (existsb _ rest); [discriminate|].
    intros [= <-]. exists header, (r1 :: rest). repeat split. exact Hlen.
Qed.

(** X7: whenever the loader produces a Grid, the Grid has one row for each
    non-blank line of the CSV after the first, and as many columns as the
    first non-blank line has fields: the first line is never a row. *)
Theorem grid_shape e s text l s' :
  net e URL = Some text ->
  data_loader e s = (Ok l, s') ->
  exists header rows g,
    tokenize text = header :: rows /\
    heap s' !! l = Some g /\
    length g = length rows /\
    Forall (fun row => length row = length header) g.
Proof.
  intros Hnet. rewrite data_loader_run, Hnet.
  destruct (read_table text) as [df| |] eqn:Hread; try discriminate.
  intros [= <- <-].
  destruct (read_table_shape _ _ Hread) as (header & rows & Htok & Hcols & Hlen).
  exists header, rows, (values df). repeat split; try assumption.
  - cbn. rewrite lookup_app_r by lia. rewrite Nat.sub_diag. reflexivity.
  - rewrite <- Hcols. apply read_table_rectangular with text. exact Hread.
Qed.

Lemma grid_shape_witness :
  exists header rows g,
    tokenize csv_ragged = header :: rows /\
    heap (snd (data_loader (serving csv_ragged true) initial)) !! 0%nat
      = Some g /\
    length g = length rows /\
    Forall (fun row => length row = length header) g.
Proof.
  apply (grid_shape (serving csv_ragged true) initial csv_ragged 0%nat).
  - reflexivity.
  - vm_compute. reflexivity.
Defined.

(** X8: a data line with fewer fields than the header is completed: the
    Grid holds NaN at each place the line leaves out. *)
Theorem short_line_completed e s text header rows i r j :
  net e URL = Some text ->
  tokenize text = header :: rows ->
  forallb label_ok header = true ->
  Forall (Forall (fun c => cell_ok c = true)) rows ->
  Forall (fun r => (length r <= length header)%nat) rows ->
  rows !! i = Some r ->
  (length r <= j < length header)%nat ->
  exists s' g,
    data_loader e s = (Ok (length (heap s)), s') /\
    heap s' !! length (heap s) = Some g /\
    cell g i j = Some VNaN.
Proof.
  intros Hnet Htok Hhead Hcells Hlen Hi [Hj1 Hj2].
  rewrite data_loader_run, Hnet.
  rewrite (read_table_ok text header rows Htok Hhead Hcells Hlen).
  eexists _, _. split; [reflexivity|]. split.
  - cbn. rewrite lookup_app_r by lia. rewrite Nat.sub_diag. reflexivity.
  - destruct (lookup_lt_is_Some_2
                (column_kinds (length header) (pad (length header) <$> rows)) j)
      as [k Hk].
    { rewrite column_kinds_length. exact Hj2. }
    unfold cell. cbn [convert values].
    rewrite list_lookup_fmap, list_lookup_fmap, Hi. cbn.
    unfold convert_row. rewrite lookup_zip_with, Hk. cbn.
    unfold pad. rewrite lookup_app_r by exact Hj1.
    rewrite lookup_replicate_2 by lia. reflexivity.
Qed.

Lemma short_line_completed_witness :
  exists s' g,
    data_loader (serving csv_ragged true) initial
      = (Ok (length (heap initial)), s') /\
    heap s' !! length (heap initial) = Some g /\
    cell g 0 2 = Some VNaN.
Proof.
  apply (short_line_completed (serving csv_ragged true) initial csv_ragged
           ["a"; "b"; "c"] [["1"; "2"]; ["3"; "4"; "5"]] 0%nat ["1"; "2"]
           2%nat).
  - reflexivity.
  - vm_compute. reflexivity.
  - vm_compute. reflexivity.
  - repeat constructor.
  - repeat constructor.
  - reflexivity.
  - cbn. lia.
Defined.

(** X9: when the first data line has no more fields than the header, a
    later data line that has more fields than the header makes the read
    fail with ParserError: the loader raises and allocates nothing. *)
Theorem long_line_raises e s text header r1 rest :
  net e URL = Some text ->
  tokenize text = header :: r1 :: rest ->
  forallb label_ok header = true ->
  Forall (Forall (fun c => cell_ok c = true)) (r1 :: rest) ->
  (length r1 <= length header)%nat ->
  Exists (fun r => (length header < length r)%nat) rest ->
  data_loader e s = (Raise ParserError, record (EHttpGet URL) s).
Proof.
  intros Hnet Htok Hhead Hcells H1 Hlong.
  rewrite data_loader_run, Hnet.
  assert (read_table text = Raise ParserError) as ->; [|reflexivity].
  unfold read_table. rewrite Htok, Hhead.
  rewrite (forallb_cells cell_ok _ (r1 :: rest) (fun c H => H) Hcells).
  cbn [andb negb].
  assert (too_long (length header) r1 = false) as ->.
  { unfold too_long. apply Nat.ltb_ge. exact H1. }
  assert (existsb (too_long (length header)) rest = true) as ->; [|reflexivity].
  apply existsb_exists. apply Exists_exists in Hlong as (r & Hr & Hlt).
  exists r. split; [apply list_elem_of_In; exact Hr|].
  unfold too_long. apply Nat.ltb_lt. exact Hlt.
Qed.

Lemma long_line_raises_witness :
  data_loader (serving csv_long_line true) initial
  = (Raise ParserError, record (EHttpGet URL) initial).
Proof.
  apply (long_line_raises (serving csv_long_line true) initial csv_long_line
           ["a"; "b"] ["1"; "2"] [["3"; "4"; "5"]]).
  - reflexivity.
  - vm_compute. reflexivity.
  - vm_compute. reflexivity.
  - repeat constructor.
  - cbn. lia.
  - constructor. cbn. lia.
Defined.

Lemma tokenize_only_newlines text :
  all_chars (Ascii.eqb newline) text = true -> tokenize text = [].
Proof.
  induction text as [|c text IH]; [reflexivity|].
  cbn [all_chars]. intros [Hc Ht]%andb_true_iff.
  apply Ascii.eqb_eq in Hc as <-.
  rewrite tokenize_blank_first. apply IH. exact Ht.
Qed.

(** X10: a resource that is empty, or holds line feeds only, makes the
    loader raise EmptyDataError, a LoadError; nothing is allocated. *)
Theorem empty_resource_raises e s text :
  net e URL = Some text ->
  all_chars (Ascii.eqb newline) text = true ->
  data_loader e s = (Raise EmptyDataError, record (EHttpGet URL) s) /\
  is_load_error EmptyDataError = true.
Proof.
  intros Hnet Hblank. split; [|reflexivity].
  rewrite data_loader_run, Hnet. unfold read_table.
  rewrite (tokenize_only_newlines _ Hblank). reflexivity.
Qed.

Lemma empty_resource_raises_witness :
  data_loader (serving (nl +:+ nl) true) initial
    = (Raise EmptyDataError, record (EHttpGet URL) initial) /\
  is_load_error EmptyDataError = true.
Proof.
  apply (empty_resource_raises (serving (nl +:+ nl) true) initial (nl +:+ nl)).
  - reflexivity.
  - reflexivity.
Defined.
